(** * AuxAI: the Flask proxy of [app.py] in front of the Spotify Web API

    A shallow embedding of [app.py].  The view functions are written in a
    small interaction monad: a view function either returns, lets a Python
    exception escape, or calls the Spotipy SDK ([sp_oauth.*], [sp.*]) and
    goes on with the SDK's answer.  The SDK and the remote service are not
    part of the repository; a run of a view function is taken against an
    arbitrary environment answering the calls, and records the calls made. *)

From Stdlib Require Import List String Ascii ZArith Bool Lia.
Import ListNotations.
Local Open Scope string_scope.

(** ** Python values *)

(** The JSON-shaped values the program handles: request parameters, JSON
    bodies, SDK results and [jsonify] arguments.  A dict is kept as an
    association list in insertion order, with keys looked up from the
    front.  JSON numbers are taken to be integers. *)
#[warnings="-register-all"] Inductive pyval : Type :=
| PNone
| PBool (b : bool)
| PInt (n : Z)
| PStr (s : string)
| PList (l : list pyval)
| PDict (kv : list (string * pyval)).

(** Python truth value, as tested by [if x:] and [if not x:]. *)
Definition truthy (v : pyval) : bool :=
  match v with
  | PNone => false
  | PBool b => b
  | PInt n => negb (Z.eqb n 0)
  | PStr s => negb (String.eqb s "")
  | PList l => match l with [] => false | _ :: _ => true end
  | PDict kv => match kv with [] => false | _ :: _ => true end
  end.

Fixpoint assoc {A : Type} (k : string) (kv : list (string * A)) : option A :=
  match kv with
  | [] => None
  | (k', v) :: rest => if String.eqb k k' then Some v else assoc k rest
  end.

Definition keys {A : Type} (kv : list (string * A)) : list string :=
  map fst kv.

(** ** Exceptions, SDK calls and answers *)

(** [SpotifyException] carries the text of [str(e)].  The other
    constructors are exceptions no view function catches. *)
Inductive exn : Type :=
| SpotifyException (msg : string)
| AttributeError
| TypeError
| UnsupportedMediaType
| OtherError (name : string).

(** The SDK methods [app.py] calls: three on [sp_oauth], six on [sp]. *)
Inductive call : Type :=
| get_cached_token
| get_authorize_url
| get_access_token (code : pyval)
| search (q : pyval) (type : string)
| track (id : string)
| current_user_playlists
| playlist_add_items (id : string) (items : pyval)
| start_playback (uris : pyval)
| add_to_queue (track_id : pyval).

(** The calls made through the API client [sp]: the proxied remote
    operations. *)
Definition is_remote (c : call) : bool :=
  match c with
  | get_cached_token | get_authorize_url | get_access_token _ => false
  | _ => true
  end.

Inductive answer : Type :=
| Returns (v : pyval)
| Raises (e : exn).

(** ** The interaction monad *)

Inductive prog (A : Type) : Type :=
| Ret (a : A)
| Raise (e : exn)
| Call (c : call) (k : answer -> prog A).

Arguments Ret {A} a.
Arguments Raise {A} e.
Arguments Call {A} c k.

Fixpoint bind {A B : Type} (p : prog A) (f : A -> prog B) : prog B :=
  match p with
  | Ret a => f a
  | Raise e => Raise e
  | Call c k => Call c (fun a => bind (k a) f)
  end.

Declare Scope prog_scope.
Delimit Scope prog_scope with prog.
Notation "x <- p ;; q" := (bind p (fun x => q))
  (at level 61, p at next level, right associativity) : prog_scope.
Notation "' pat <- p ;; q" := (bind p (fun x => match x with pat => q end))
  (at level 61, pat pattern, p at next level, right associativity) : prog_scope.
Local Open Scope prog_scope.

(** An SDK call outside any [try]: a raised exception escapes. *)
Definition invoke (c : call) : prog pyval :=
  Call c (fun a => match a with Returns v => Ret v | Raises e => Raise e end).

(** [try: p  except spotipy.exceptions.SpotifyException as e: h (str e)]. *)
Fixpoint try_except {A : Type} (p : prog A) (h : string -> prog A) : prog A :=
  match p with
  | Ret a => Ret a
  | Raise (SpotifyException msg) => h msg
  | Raise e => Raise e
  | Call c k => Call c (fun a => try_except (k a) h)
  end.

Fixpoint mapM {A B : Type} (f : A -> prog B) (l : list A) : prog (list B) :=
  match l with
  | [] => Ret []
  | x :: rest => y <- f x ;; ys <- mapM f rest ;; Ret (y :: ys)
  end.

(** [d.get(k, default)]: only a dict has the method. *)
Definition py_get (d : pyval) (k : string) (default : pyval) : prog pyval :=
  match d with
  | PDict kv => Ret (match assoc k kv with Some v => v | None => default end)
  | _ => Raise AttributeError
  end.

(** The items a [for] loop or a comprehension draws from a value. *)
Definition py_iter (v : pyval) : prog (list pyval) :=
  match v with
  | PList l => Ret l
  | PDict kv => Ret (map PStr (keys kv))
  | PStr s => Ret (map (fun c => PStr (String c "")) (list_ascii_of_string s))
  | _ => Raise TypeError
  end.

(** ** Requests and responses *)

(** [request.args] (the query string) and [request.json] (the parsed JSON
    body, [None] when the request carries none). *)
Record request : Type := mkRequest {
  args : list (string * string);
  json : option pyval
}.

(** [request.args.get(k)] *)
Definition args_get (r : request) (k : string) : pyval :=
  match assoc k (args r) with
  | Some s => PStr s
  | None => PNone
  end.

(** [request.json]: reading it on a request without a JSON body raises. *)
Definition request_json (r : request) : prog pyval :=
  match json r with
  | Some v => Ret v
  | None => Raise UnsupportedMediaType
  end.

Inductive response : Type :=
| Json (body : pyval) (status : Z)
| Redirect (location : pyval).

Definition jsonify (v : pyval) : response := Json v 200.
Definition redirect (v : pyval) : response := Redirect v.

Definition status_of (r : response) : Z :=
  match r with
  | Json _ st => st
  | Redirect _ => 302
  end.

Definition error_body (msg : pyval) : pyval := PDict [("error", msg)].

(** ** The view functions of [app.py] *)

(** [require_authentication()]: the pair [(authenticated, token_info)]. *)
Definition require_authentication : prog (bool * pyval) :=
  token_info <- invoke get_cached_token ;;
  if negb (truthy token_info) then Ret (false, PNone)
  else Ret (true, token_info).

(** [GET /login] *)
Definition login : prog response :=
  auth_url <- invoke get_authorize_url ;;
  Ret (redirect auth_url).

(** [GET /callback] *)
Definition callback (request : request) : prog response :=
  let code := args_get request "code" in
  let error := args_get request "error" in
  if truthy error then Ret (Json (error_body error) 400)
  else
    let failed := Ret (Json (error_body (PStr "Authentication failed.")) 400) in
    if truthy code then
      token_info <- invoke (get_access_token code) ;;
      if truthy token_info
      then Ret (jsonify (PDict [("status", PStr "Authenticated successfully.")]))
      else failed
    else failed.

(** The projection of one artist in the comprehension of [search_songs]. *)
Definition artist_info (artist : pyval) : prog pyval :=
  id <- py_get artist "id" PNone ;;
  name <- py_get artist "name" PNone ;;
  href <- py_get artist "href" PNone ;;
  Ret (PDict [("id", id); ("name", name); ("href", href)]).

(** [track.get("album", {}).get(k)] *)
Definition album_get (track : pyval) (k : string) : prog pyval :=
  album <- py_get track "album" (PDict []) ;;
  py_get album k PNone.

(** The dict [track_info] built in the loop body of [search_songs]. *)
Definition track_info (track : pyval) : prog pyval :=
  id <- py_get track "id" PNone ;;
  name <- py_get track "name" PNone ;;
  track_artists <- py_get track "artists" (PList []) ;;
  artist_items <- py_iter track_artists ;;
  artists <- mapM artist_info artist_items ;;
  album_id <- album_get track "id" ;;
  album_name <- album_get track "name" ;;
  album_release_date <- album_get track "release_date" ;;
  album_total_tracks <- album_get track "total_tracks" ;;
  album_images <- album_get track "images" ;;
  album_href <- album_get track "href" ;;
  href <- py_get track "href" PNone ;;
  uri <- py_get track "uri" PNone ;;
  preview_url <- py_get track "preview_url" PNone ;;
  popularity <- py_get track "popularity" PNone ;;
  duration_ms <- py_get track "duration_ms" PNone ;;
  Ret (PDict [("id", id);
              ("name", name);
              ("artists", PList artists);
              ("album", PDict [("id", album_id);
                               ("name", album_name);
                               ("release_date", album_release_date);
                               ("total_tracks", album_total_tracks);
                               ("images", album_images);
                               ("href", album_href)]);
              ("href", href);
              ("uri", uri);
              ("preview_url", preview_url);
              ("popularity", popularity);
              ("duration_ms", duration_ms)]).

(** Lines 106-140 of [search_songs]: from the SDK's search result to the
    response. *)
Definition simplify_results (results : pyval) : prog response :=
  tracks_obj <- py_get results "tracks" (PDict []) ;;
  tracks <- py_get tracks_obj "items" (PList []) ;;
  track_items <- py_iter tracks ;;
  simplified_tracks <- mapM track_info track_items ;;
  Ret (jsonify (PList simplified_tracks)).

Definition not_authenticated : response :=
  Json (error_body (PStr "User not authenticated. Please log in via /login.")) 401.

(** [GET /search] *)
Definition search_songs (request : request) : prog response :=
  '(authenticated, _) <- require_authentication ;;
  if negb authenticated then Ret not_authenticated
  else
    let query := args_get request "q" in
    if negb (truthy query)
    then Ret (Json (error_body (PStr "Missing query parameter")) 400)
    else
      results <- invoke (search query "track") ;;
      simplify_results results.

(** The [except] clause shared by the four guarded remote calls. *)
Definition remote_error (msg : string) : prog response :=
  Ret (Json (error_body (PStr msg)) 400).

Definition success : response := jsonify (PDict [("status", PStr "success")]).

(** [GET /track/<id>] *)
Definition get_track_details (id : string) : prog response :=
  '(authenticated, _) <- require_authentication ;;
  if negb authenticated then Ret not_authenticated
  else
    try_except
      (track <- invoke (track id) ;;
       Ret (jsonify track))
      remote_error.

(** [GET /playlists] *)
Definition get_playlists : prog response :=
  '(authenticated, _) <- require_authentication ;;
  if negb authenticated then Ret not_authenticated
  else
    playlists <- invoke current_user_playlists ;;
    Ret (jsonify playlists).

(** [POST /playlists/<id>/tracks] *)
Definition add_to_playlist (id : string) (request : request) : prog response :=
  '(authenticated, _) <- require_authentication ;;
  if negb authenticated then Ret not_authenticated
  else
    body <- request_json request ;;
    track_ids <- py_get body "track_ids" PNone ;;
    if negb (truthy track_ids)
    then Ret (Json (error_body (PStr "Missing track_ids parameter")) 400)
    else
      try_except
        (_ <- invoke (playlist_add_items id track_ids) ;;
         Ret success)
        remote_error.

(** [POST /queue] *)
Definition queue_song (request : request) : prog response :=
  '(authenticated, _) <- require_authentication ;;
  if negb authenticated then Ret not_authenticated
  else
    body <- request_json request ;;
    track_id <- py_get body "track_id" PNone ;;
    if negb (truthy track_id)
    then Ret (Json (error_body (PStr "Missing track_id parameter")) 400)
    else
      try_except
        (_ <- invoke (add_to_queue track_id) ;;
         Ret success)
        remote_error.

(** The endpoints, as the routing table of [app.py] names them. *)
Inductive route : Type :=
| Login
| Callback
| SearchSongs
| GetTrackDetails (id : string)
| GetPlaylists
| AddToPlaylist (id : string)
| PlaySong
| QueueSong.

(** The routes whose view function starts with [require_authentication]. *)
Definition gated (r : route) : bool :=
  match r with
  | Login | Callback => false
  | _ => true
  end.

Section Formatting.

(** The text an f-string field [{v}] gives for a value that is not a
    string (Python's [format(v, '')]), which is outside the repository. *)
Variable format_value : pyval -> string.

Definition f_field (v : pyval) : string :=
  match v with
  | PStr s => s
  | _ => format_value v
  end.

(** [PUT /play] *)
Definition play_song (request : request) : prog response :=
  '(authenticated, _) <- require_authentication ;;
  if negb authenticated then Ret not_authenticated
  else
    body <- request_json request ;;
    track_id <- py_get body "track_id" PNone ;;
    if negb (truthy track_id)
    then Ret (Json (error_body (PStr "Missing track_id parameter")) 400)
    else
      try_except
        (_ <- invoke (start_playback
                        (PList [PStr ("spotify:track:" ++ f_field track_id)])) ;;
         Ret success)
        remote_error.

(** The view function each route dispatches to. *)
Definition handle (r : route) (request : request) : prog response :=
  match r with
  | Login => login
  | Callback => callback request
  | SearchSongs => search_songs request
  | GetTrackDetails id => get_track_details id
  | GetPlaylists => get_playlists
  | AddToPlaylist id => add_to_playlist id request
  | PlaySong => play_song request
  | QueueSong => queue_song request
  end.

End Formatting.

(** ** Running a view function against an environment *)

Record run_result (A W : Type) : Type := mkResult {
  outcome : A + exn;
  calls : list (call * answer);
  final : W
}.

Arguments mkResult {A W}.
Arguments outcome {A W}.
Arguments calls {A W}.
Arguments final {A W}.

Section Run.

(** The environment: a state [W] and how each SDK call is answered in it. *)
Context {W : Type}.
Variable sdk : W -> call -> answer * W.

Fixpoint run {A : Type} (p : prog A) (w : W) : run_result A W :=
  match p with
  | Ret a => mkResult (inl a) [] w
  | Raise e => mkResult (inr e) [] w
  | Call c k =>
      let (a, w') := sdk w c in
      let r := run (k a) w' in
      mkResult (outcome r) ((c, a) :: calls r) (final r)
  end.

End Run.

(** The remote operations attempted during a run. *)
Definition remote_calls (l : list (call * answer)) : list call :=
  filter is_remote (map fst l).

Definition prepend {A W : Type} (ca : call * answer) (r : run_result A W)
  : run_result A W :=
  mkResult (outcome r) (ca :: calls r) (final r).

(** ** What each gated view function does once the gate has passed

    The text of each gated view function after its
    [if not authenticated: return ..., 401]; [run_handle_gated] below shows
    that the view functions are the gate followed by these. *)

Definition search_songs_body (request : request) : prog response :=
  let query := args_get request "q" in
  if negb (truthy query)
  then Ret (Json (error_body (PStr "Missing query parameter")) 400)
  else
    results <- invoke (search query "track") ;;
    simplify_results results.

Definition get_track_details_body (id : string) : prog response :=
  try_except
    (track <- invoke (track id) ;;
     Ret (jsonify track))
    remote_error.

Definition get_playlists_body : prog response :=
  playlists <- invoke current_user_playlists ;;
  Ret (jsonify playlists).

Definition add_to_playlist_body (id : string) (request : request)
  : prog response :=
  body <- request_json request ;;
  track_ids <- py_get body "track_ids" PNone ;;
  if negb (truthy track_ids)
  then Ret (Json (error_body (PStr "Missing track_ids parameter")) 400)
  else
    try_except
      (_ <- invoke (playlist_add_items id track_ids) ;;
       Ret success)
      remote_error.

Definition play_song_body (format_value : pyval -> string) (request : request)
  : prog response :=
  body <- request_json request ;;
  track_id <- py_get body "track_id" PNone ;;
  if negb (truthy track_id)
  then Ret (Json (error_body (PStr "Missing track_id parameter")) 400)
  else
    try_except
      (_ <- invoke (start_playback
                      (PList [PStr ("spotify:track:"
                                    ++ f_field format_value track_id)])) ;;
       Ret success)
      remote_error.

Definition queue_song_body (request : request) : prog response :=
  body <- request_json request ;;
  track_id <- py_get body "track_id" PNone ;;
  if negb (truthy track_id)
  then Ret (Json (error_body (PStr "Missing track_id parameter")) 400)
  else
    try_except
      (_ <- invoke (add_to_queue track_id) ;;
       Ret success)
      remote_error.

Definition after_gate (format_value : pyval -> string) (r : route)
  (request : request) : prog response :=
  match r with
  | SearchSongs => search_songs_body request
  | GetTrackDetails id => get_track_details_body id
  | GetPlaylists => get_playlists_body
  | AddToPlaylist id => add_to_playlist_body id request
  | PlaySong => play_song_body format_value request
  | QueueSong => queue_song_body request
  | Login | Callback => handle format_value r request
  end.

(** ** The SDK's token handling, from the specification

    [SpotifyOAuth] and the remote token endpoint are not in the repository.
    The definitions of this part follow sections 3, 4.1, 4.2 and 4.3 of the
    specification. *)

Module Sdk.

(** Modelled from the spec: the TokenRecord of section 3, which the
    repository only sees as the [token_info] the SDK hands back. *)
Record TokenRecord : Type := mkToken {
  access_token : string;
  refresh_token : string;
  expires_at : Z;
  scope : list string
}.

(** Modelled from the spec: what the remote token endpoint replies to an
    accepted refresh (section 3: the access token and the expiry are
    updated, the refresh token is retained unless rotated). *)
Record refresh_reply : Type := mkReply {
  new_access_token : string;
  new_expires_at : Z;
  rotated_refresh_token : option string
}.

(** Modelled from the spec: the process-wide state the SDK works on.  The
    single TokenCache slot of section 4.1, the clock of section 4.3, and
    the remote side: which refresh tokens the token endpoint accepts, which
    authorization codes are still unused and the record each one buys,
    and how the remote API answers the proxied operations. *)
Record world : Type := mkWorld {
  cache : option TokenRecord;
  now : Z;
  refresh_grant : string -> option refresh_reply;
  unused_codes : list (string * TokenRecord);
  authorize_url : string;
  api : call -> answer
}.

(** Modelled from the spec: [TokenCache.put] of section 4.1, overwriting
    any prior record. *)
Definition put (t : TokenRecord) (w : world) : world :=
  mkWorld (Some t) (now w) (refresh_grant w) (unused_codes w)
          (authorize_url w) (api w).

(** Modelled from the spec: the remote side consuming an authorization
    code (section 4.2: codes are single-use). *)
Definition consume (code : string) (w : world) : world :=
  mkWorld (cache w) (now w) (refresh_grant w)
          (filter (fun p => negb (String.eqb code (fst p))) (unused_codes w))
          (authorize_url w) (api w).

(** Modelled from the spec: the record after an accepted refresh. *)
Definition refreshed (t : TokenRecord) (r : refresh_reply) : TokenRecord :=
  mkToken (new_access_token r)
          (match rotated_refresh_token r with
           | Some rt => rt
           | None => refresh_token t
           end)
          (new_expires_at r)
          (scope t).

(** Modelled from the spec: [requireValidToken] of section 4.3, which is
    what [sp_oauth.get_cached_token()] stands for in [app.py].  [None] is
    the NotAuthenticated failure. *)
Definition requireValidToken (w : world) : option TokenRecord * world :=
  match cache w with
  | None => (None, w)
  | Some t =>
      if Z.ltb (now w) (expires_at t) then (Some t, w)
      else
        match refresh_grant w (refresh_token t) with
        | Some r => (Some (refreshed t r), put (refreshed t r) w)
        | None => (None, w)
        end
  end.

(** Modelled from the spec: [exchangeCode] of section 4.2, which is what
    [sp_oauth.get_access_token(code)] stands for in [app.py].  [None] is
    the ExchangeError failure. *)
Definition exchangeCode (code : string) (w : world)
  : option TokenRecord * world :=
  match assoc code (unused_codes w) with
  | Some t => (Some t, put t (consume code w))
  | None => (None, w)
  end.

(** The [token_info] dict of a record. *)
Definition token_info (t : TokenRecord) : pyval :=
  PDict [("access_token", PStr (access_token t));
         ("refresh_token", PStr (refresh_token t));
         ("expires_at", PInt (expires_at t));
         ("scope", PList (map PStr (scope t)))].

(** Modelled from the spec: sections 4.2 and 4.3 name the failures of the
    two operations (ExchangeError, NotAuthenticated) and do not say how the
    caller receives them.  This environment hands a failure over as
    [None], the empty result that [if not token_info] and [if token_info]
    of [app.py] test for; [Spotipy.sdk] below is an environment that raises
    instead.  The choice only fixes sample runs: the properties of the view
    functions are stated for every environment. *)
Definition as_token_info (o : option TokenRecord) : answer :=
  match o with
  | Some t => Returns (token_info t)
  | None => Returns PNone
  end.

(** Modelled from the spec: the environment the view functions run in. *)
Definition sdk (w : world) (c : call) : answer * world :=
  match c with
  | get_cached_token =>
      let (o, w') := requireValidToken w in (as_token_info o, w')
  | get_authorize_url => (Returns (PStr (authorize_url w)), w)
  | get_access_token (PStr code) =>
      let (o, w') := exchangeCode code w in (as_token_info o, w')
  | get_access_token _ => (Returns PNone, w)
  | _ => (api w c, w)
  end.

End Sdk.

(** ** The shape of the search projection *)

(** [d.get(k, default)] on the entries of a dict. *)
Definition dict_get (kv : list (string * pyval)) (k : string) (default : pyval)
  : pyval :=
  match assoc k kv with
  | Some v => v
  | None => default
  end.

Definition reduced_fields : list string :=
  ["id"; "name"; "artists"; "album"; "href"; "uri"; "preview_url";
   "popularity"; "duration_ms"].

Definition scalar_fields : list string :=
  ["id"; "name"; "href"; "uri"; "preview_url"; "popularity"; "duration_ms"].

Definition album_fields : list string :=
  ["id"; "name"; "release_date"; "total_tracks"; "images"; "href"].

Definition artist_fields : list string := ["id"; "name"; "href"].

Definition is_dict (v : pyval) : bool :=
  match v with
  | PDict _ => true
  | _ => false
  end.

(** A track item of the remote shape: an object whose [artists], when
    present, is a list of objects and whose [album], when present, is an
    object.  Every field may be missing. *)
Definition track_ok (t : pyval) : bool :=
  match t with
  | PDict kv =>
      match assoc "artists" kv with
      | None => true
      | Some (PList arts) => forallb is_dict arts
      | Some _ => false
      end
      &&
      match assoc "album" kv with
      | None | Some (PDict _) => true
      | Some _ => false
      end
  | _ => false
  end.

(** A search result of the remote shape holding the track items [items]. *)
Definition search_result_of (results : pyval) (items : list pyval) : Prop :=
  exists rkv tkv,
    results = PDict rkv /\
    assoc "tracks" rkv = Some (PDict tkv) /\
    assoc "items" tkv = Some (PList items) /\
    forallb track_ok items = true.

(** The reading of "every missing field is mapped to null": whichever
    field of the reduced set the remote item lacks is [None] in the
    output object. *)
Definition missing_as_null (t o : pyval) : Prop :=
  forall kv okv k,
    t = PDict kv -> o = PDict okv ->
    In k reduced_fields -> assoc k kv = None -> assoc k okv = Some PNone.

Definition artists_of (kv : list (string * pyval)) : list pyval :=
  match assoc "artists" kv with
  | Some (PList arts) => arts
  | _ => []
  end.

Definition album_of (kv : list (string * pyval)) : list (string * pyval) :=
  match assoc "album" kv with
  | Some (PDict akv) => akv
  | _ => []
  end.

Definition reduced_artist (a o : pyval) : Prop :=
  exists kv okv,
    a = PDict kv /\ o = PDict okv /\
    keys okv = artist_fields /\
    forall k, In k artist_fields -> assoc k okv = Some (dict_get kv k PNone).

(** What the output object [o] of a track item [t] holds: exactly the
    reduced field set; each scalar field and each album field is the remote
    value, or [None] when the remote item lacks it; one reduced artist per
    remote artist, none when the remote item has no [artists]. *)
Definition reduced_track (t o : pyval) : Prop :=
  exists kv okv,
    t = PDict kv /\ o = PDict okv /\
    keys okv = reduced_fields /\
    (forall k, In k scalar_fields ->
               assoc k okv = Some (dict_get kv k PNone)) /\
    (exists outs,
        assoc "artists" okv = Some (PList outs) /\
        Forall2 reduced_artist (artists_of kv) outs) /\
    (exists oakv,
        assoc "album" okv = Some (PDict oakv) /\
        keys oakv = album_fields /\
        forall k, In k album_fields ->
                  assoc k oakv = Some (dict_get (album_of kv) k PNone)).

(** The pure value of [artist_info] and [track_info] on well-shaped
    items. *)
Definition artist_projection (a : pyval) : pyval :=
  match a with
  | PDict kv => PDict [("id", dict_get kv "id" PNone);
                       ("name", dict_get kv "name" PNone);
                       ("href", dict_get kv "href" PNone)]
  | _ => PNone
  end.

Definition track_projection (t : pyval) : pyval :=
  match t with
  | PDict kv =>
      PDict [("id", dict_get kv "id" PNone);
             ("name", dict_get kv "name" PNone);
             ("artists", PList (map artist_projection (artists_of kv)));
             ("album",
              PDict [("id", dict_get (album_of kv) "id" PNone);
                     ("name", dict_get (album_of kv) "name" PNone);
                     ("release_date", dict_get (album_of kv) "release_date" PNone);
                     ("total_tracks", dict_get (album_of kv) "total_tracks" PNone);
                     ("images", dict_get (album_of kv) "images" PNone);
                     ("href", dict_get (album_of kv) "href" PNone)]);
             ("href", dict_get kv "href" PNone);
             ("uri", dict_get kv "uri" PNone);
             ("preview_url", dict_get kv "preview_url" PNone);
             ("popularity", dict_get kv "popularity" PNone);
             ("duration_ms", dict_get kv "duration_ms" PNone)]
  | _ => PNone
  end.

(** ** Sample environments *)

Module Sample.

Import Sdk.

Definition scopes : list string :=
  ["user-library-read"; "user-library-modify";
   "user-read-playback-state"; "user-modify-playback-state"].

Definition token : TokenRecord := mkToken "AT1" "RT1" 3600 scopes.


Definition a_track : pyval :=
  PDict [("id", PStr "abc123"); ("name", PStr "Song");
         ("artists", PList [PDict [("id", PStr "ar1"); ("name", PStr "Band")]]);
         ("album", PDict [("id", PStr "al1"); ("name", PStr "Record")]);
         ("uri", PStr "spotify:track:abc123");
         ("duration_ms", PInt 180000);
         ("available_markets", PList [PStr "US"])].

Definition results : pyval :=
  PDict [("tracks", PDict [("items", PList [a_track; PDict []])])].

(** A remote API that accepts every call. *)
Definition api_ok (c : call) : answer :=
  match c with
  | search _ _ => Returns results
  | track _ => Returns a_track
  | current_user_playlists => Returns (PDict [("items", PList [])])
  | _ => Returns PNone
  end.

(** A remote API that rejects every call. *)
Definition api_rejecting (c : call) : answer :=
  Raises (SpotifyException "http status: 403, code: -1 - Forbidden").

Definition no_grant (rt : string) : option refresh_reply := None.


Definition url : string := "https://accounts.spotify.com/authorize".

(** A valid session at time 100. *)
Definition logged_in : world :=
  mkWorld (Some token) 100 no_grant [] url api_ok.

Definition logged_in_rejecting : world :=
  mkWorld (Some token) 100 no_grant [] url api_rejecting.

(** No login has happened. *)
Definition logged_out : world :=
  mkWorld None 100 no_grant [] url api_ok.


(** The session has expired and the refresh token is revoked. *)
Definition revoked : world :=
  mkWorld (Some token) 4000 no_grant [] url api_ok.

(** The user has just authorized: code [abc] is waiting to be exchanged. *)
Definition authorizing : world :=
  mkWorld None 100 no_grant [("abc", token)] url api_ok.

(** A formatter for the sample runs, which format no number and no
    container. *)
Definition format (v : pyval) : string :=
  match v with
  | PNone => "None"
  | PBool true => "True"
  | PBool false => "False"
  | _ => ""
  end.

Definition query (k v : string) : request := mkRequest [(k, v)] None.

Definition body (v : pyval) : request := mkRequest [] (Some v).

End Sample.

(** ** Sample environments that fail *)

Module Faulty.

(** An SDK whose every call raises (the network is down); it has no
    state. *)
Definition offline (w : unit) (c : call) : answer * unit :=
  (Raises (OtherError "ConnectionError"), w).

(** A valid session in front of a remote API that cannot be reached. *)
Definition unreachable_api (c : call) : answer :=
  Raises (OtherError "ConnectionError").

Definition logged_in_unreachable : Sdk.world :=
  Sdk.mkWorld (Some Sample.token) 100 Sample.no_grant [] Sample.url
              unreachable_api.

End Faulty.

(** ** An SDK that serves from its cache and raises *)

(** An environment with the defaults of Spotipy's [SpotifyOAuth], which
    is not code of the repository.  A cached token that is about to expire
    is refreshed on lookup; a refused refresh and a refused exchange are
    raised as [SpotifyOauthError]; and [get_access_token] answers from the
    cache when it holds a token, sending the code only when it holds
    none.  The scope check of the cached token is left out. *)
Module Spotipy.

Import Sdk.

Definition oauth_error : exn := OtherError "SpotifyOauthError".

(** [is_token_expired]: less than 60 seconds are left. *)
Definition is_token_expired (w : world) (t : TokenRecord) : bool :=
  Z.ltb (expires_at t - now w) 60.

(** [validate_token] on the cached record. *)
Definition validate_token (w : world) : answer * world :=
  match cache w with
  | None => (Returns PNone, w)
  | Some t =>
      if is_token_expired w t then
        match refresh_grant w (refresh_token t) with
        | Some r => (Returns (token_info (refreshed t r)), put (refreshed t r) w)
        | None => (Raises oauth_error, w)
        end
      else (Returns (token_info t), w)
  end.

(** The exchange proper, at the remote token endpoint. *)
Definition request_access_token (code : pyval) (w : world) : answer * world :=
  match code with
  | PStr c =>
      match assoc c (unused_codes w) with
      | Some t => (Returns (token_info t), put t (consume c w))
      | None => (Raises oauth_error, w)
      end
  | _ => (Raises oauth_error, w)
  end.

Definition sdk (w : world) (c : call) : answer * world :=
  match c with
  | get_cached_token => validate_token w
  | get_authorize_url => (Returns (PStr (authorize_url w)), w)
  | get_access_token code =>
      match validate_token w with
      | (Returns PNone, _) => request_access_token code w
      | cached => cached
      end
  | _ => (api w c, w)
  end.

End Spotipy.

(** Whether an SDK call came back with a true value: for
    [sp_oauth.get_cached_token()], whether the gate passes. *)
Definition passed (a : answer) : bool :=
  match a with
  | Returns v => truthy v
  | Raises _ => false
  end.

(** The required parameter of a gated route is there and true: the
    request reaches the remote call of its view function. *)
Definition well_formed (r : route) (req : request) : bool :=
  match r with
  | SearchSongs => truthy (args_get req "q")
  | AddToPlaylist _ =>
      match json req with
      | Some (PDict kv) => truthy (dict_get kv "track_ids" PNone)
      | _ => false
      end
  | PlaySong | QueueSong =>
      match json req with
      | Some (PDict kv) => truthy (dict_get kv "track_id" PNone)
      | _ => false
      end
  | _ => true
  end.

(** The gated routes whose remote call stands in a
    [try ... except SpotifyException]. *)
Definition catches_remote_errors (r : route) : bool :=
  match r with
  | GetTrackDetails _ | AddToPlaylist _ | PlaySong | QueueSong => true
  | _ => false
  end.

(** A program that makes no call. *)
Definition silent {A : Type} (p : prog A) : Prop :=
  match p with
  | Call _ _ => False
  | _ => True
  end.

(** * Properties *)

Lemma truthy_PStr (s : string) : s <> "" -> truthy (PStr s) = true.
Proof.
  intros Hs. simpl. destruct (String.eqb_spec s ""); [contradiction | reflexivity].
Qed.

(** ** The gate *)

Section Gate.

Context {W : Type}.
Variable sdk : W -> call -> answer * W.
Variable format_value : pyval -> string.

(** Every gated view function is the cache lookup, then either the 401
    response or the rest of the function. *)
Lemma run_handle_gated (r : route) (req : request) (w : W) :
  gated r = true ->
  run sdk (handle format_value r req) w =
  let (a, w1) := sdk w get_cached_token in
  match a with
  | Returns v =>
      if truthy v
      then prepend (get_cached_token, a)
                   (run sdk (after_gate format_value r req) w1)
      else mkResult (inl not_authenticated) [(get_cached_token, a)] w1
  | Raises e => mkResult (inr e) [(get_cached_token, a)] w1
  end.
Proof.
  intros Hg.
  destruct r; try discriminate Hg; simpl;
    destruct (sdk w get_cached_token) as [a w1];
    destruct a as [v | e]; simpl; try reflexivity;
    destruct (truthy v); reflexivity.
Qed.

(** C1: in every gated view function the first thing done is the
    authentication check (the cache lookup), and unless that check
    succeeded nothing follows it: a remote call appears in a run only
    after a successful check of the same run. *)
Theorem gate_precedes_remote_calls (r : route) (req : request) (w : W) :
  gated r = true ->
  exists a rest,
    calls (run sdk (handle format_value r req) w)
    = (get_cached_token, a) :: rest /\
    (passed a = false -> rest = []) /\
    (remote_calls (calls (run sdk (handle format_value r req) w)) <> [] ->
     passed a = true).
Proof.
  intros Hg. rewrite (run_handle_gated r req w Hg).
  destruct (sdk w get_cached_token) as [a w1].
  destruct a as [v | e]; simpl.
  - destruct (truthy v) eqn:Hv; simpl.
    + eexists; eexists; split; [reflexivity |].
      split; [intros H; simpl in H; congruence | intros _; exact Hv].
    + eexists; eexists; split; [reflexivity |].
      split; [reflexivity |]. intros H; exfalso; apply H; reflexivity.
  - eexists; eexists; split; [reflexivity |].
    split; [reflexivity |]. intros H; exfalso; apply H; reflexivity.
Qed.

(** C2: a request to a gated route for which the token cache yields no
    token record is answered 401 with the log-in message, and the cache
    lookup is the only call made. *)
Theorem empty_cache_is_401 (r : route) (req : request) (w : W) :
  gated r = true ->
  fst (sdk w get_cached_token) = Returns PNone ->
  let res := run sdk (handle format_value r req) w in
  outcome res
  = inl (Json (PDict [("error",
                       PStr "User not authenticated. Please log in via /login.")])
              401) /\
  calls res = [(get_cached_token, Returns PNone)] /\
  remote_calls (calls res) = [].
Proof.
  intros Hg Hnone res. subst res.
  rewrite (run_handle_gated r req w Hg).
  destruct (sdk w get_cached_token) as [a w1]. simpl in Hnone. subst a.
  simpl. repeat split.
Qed.

End Gate.

Lemma gate_precedes_remote_calls_witness :
  gated SearchSongs = true /\
  exists a rest,
    calls (run Sdk.sdk (handle Sample.format SearchSongs
                               (Sample.query "q" "song")) Sample.logged_in)
    = (get_cached_token, a) :: rest /\
    (passed a = false -> rest = []) /\
    (remote_calls
       (calls (run Sdk.sdk (handle Sample.format SearchSongs
                                   (Sample.query "q" "song")) Sample.logged_in))
     <> [] -> passed a = true).
Proof.
  split; [reflexivity |].
  apply (gate_precedes_remote_calls Sdk.sdk Sample.format SearchSongs
           (Sample.query "q" "song") Sample.logged_in).
  reflexivity.
Defined.

Lemma empty_cache_is_401_witness :
  gated (GetTrackDetails "abc123") = true /\
  fst (Sdk.sdk Sample.logged_out get_cached_token) = Returns PNone /\
  let res := run Sdk.sdk (handle Sample.format (GetTrackDetails "abc123")
                                 (Sample.query "q" "song")) Sample.logged_out in
  outcome res
  = inl (Json (PDict [("error",
                       PStr "User not authenticated. Please log in via /login.")])
              401) /\
  calls res = [(get_cached_token, Returns PNone)] /\
  remote_calls (calls res) = [].
Proof.
  split; [reflexivity |]. split; [reflexivity |].
  apply (empty_cache_is_401 Sdk.sdk Sample.format (GetTrackDetails "abc123")
           (Sample.query "q" "song") Sample.logged_out); reflexivity.
Defined.

(** ** Programs that make no call *)

Lemma silent_bind {A B : Type} (p : prog A) (f : A -> prog B) :
  silent p -> (forall a, silent (f a)) -> silent (bind p f).
Proof.
  destruct p; simpl; intros Hp Hf; auto.
Qed.

Lemma silent_py_get (d : pyval) (k : string) (default : pyval) :
  silent (py_get d k default).
Proof. destruct d; exact I. Qed.

Lemma silent_py_iter (v : pyval) : silent (py_iter v).
Proof. destruct v; exact I. Qed.

Lemma silent_mapM {A B : Type} (f : A -> prog B) (l : list A) :
  (forall a, silent (f a)) -> silent (mapM f l).
Proof.
  intros Hf. induction l as [| x rest IH]; simpl; [exact I |].
  apply silent_bind; [apply Hf |]. intros y.
  apply silent_bind; [exact IH |]. intros ys. exact I.
Qed.

Create HintDb silent.
#[local] Hint Resolve silent_py_get silent_py_iter : silent.

Ltac silent_steps :=
  repeat first
    [ apply silent_bind; [solve [auto with silent] | intros ?]
    | exact I
    | solve [auto with silent] ].

Lemma silent_artist_info (a : pyval) : silent (artist_info a).
Proof. unfold artist_info. silent_steps. Qed.

Lemma silent_album_get (t : pyval) (k : string) : silent (album_get t k).
Proof. unfold album_get. silent_steps. Qed.

#[local] Hint Resolve silent_artist_info silent_album_get : silent.

Lemma silent_track_info (t : pyval) : silent (track_info t).
Proof.
  unfold track_info.
  apply silent_bind; [auto with silent | intros id].
  apply silent_bind; [auto with silent | intros name].
  apply silent_bind; [auto with silent | intros arts].
  apply silent_bind; [auto with silent | intros items].
  apply silent_bind; [apply silent_mapM; auto with silent | intros artists].
  silent_steps.
Qed.

Lemma silent_simplify_results (results : pyval) :
  silent (simplify_results results).
Proof.
  unfold simplify_results.
  apply silent_bind; [auto with silent | intros tracks_obj].
  apply silent_bind; [auto with silent | intros tracks].
  apply silent_bind; [auto with silent | intros items].
  apply silent_bind; [apply silent_mapM; apply silent_track_info | intros out].
  exact I.
Qed.

Lemma run_silent {A W : Type} (sdk : W -> call -> answer * W)
  (p : prog A) (w : W) :
  silent p -> calls (run sdk p w) = [] /\ final (run sdk p w) = w.
Proof. destruct p; simpl; intros H; auto; contradiction. Qed.

(** ** The callback *)

Section Callback.

Context {W : Type}.
Variable sdk : W -> call -> answer * W.

(** C7, amended: [GET /callback] looks at [error] first and at [code]
    second, each counting only when it is not empty.  With a non-empty
    [error] the answer is 400 with that error and no exchange is
    attempted; otherwise with a non-empty [code] the exchange is called
    once, and a token coming back gives the "Authenticated successfully."
    status (no token gives the 400 failure response); with neither, the
    answer is the 400 failure response and nothing is called. *)
Theorem callback_dispatch (req : request) (w : W) :
  (forall e,
      assoc "error" (args req) = Some e -> e <> "" ->
      run sdk (callback req) w
      = mkResult (inl (Json (PDict [("error", PStr e)]) 400)) [] w) /\
  (forall c,
      truthy (args_get req "error") = false ->
      assoc "code" (args req) = Some c -> c <> "" ->
      let a := fst (sdk w (get_access_token (PStr c))) in
      let res := run sdk (callback req) w in
      calls res = [(get_access_token (PStr c), a)] /\
      (passed a = true ->
       outcome res
       = inl (Json (PDict [("status", PStr "Authenticated successfully.")])
                   200)) /\
      (forall v, a = Returns v -> truthy v = false ->
       outcome res
       = inl (Json (PDict [("error", PStr "Authentication failed.")]) 400))) /\
  (truthy (args_get req "error") = false ->
   truthy (args_get req "code") = false ->
   run sdk (callback req) w
   = mkResult (inl (Json (PDict [("error", PStr "Authentication failed.")])
                         400)) [] w).
Proof.
  split; [| split].
  - intros e He Hne.
    assert (Herr : args_get req "error" = PStr e)
      by (unfold args_get; rewrite He; reflexivity).
    unfold callback. rewrite Herr, (truthy_PStr e Hne). reflexivity.
  - intros c Herr Hc Hne a res. subst a res.
    assert (Hcode : args_get req "code" = PStr c)
      by (unfold args_get; rewrite Hc; reflexivity).
    unfold callback. rewrite Herr, Hcode, (truthy_PStr c Hne). simpl.
    destruct (sdk w (get_access_token (PStr c))) as [a w1]. simpl.
    destruct a as [v | e]; simpl.
    + destruct (truthy v) eqn:Hv; simpl; repeat split; try congruence;
        intros v' Hv' Hf; injection Hv' as <-; congruence.
    + repeat split; try discriminate.
  - intros Herr Hcode. unfold callback. rewrite Herr, Hcode. reflexivity.
Qed.

End Callback.

(** C7, as stated, fails: with [?error=&code=abc] the [error] parameter is
    present, yet the code is exchanged and the answer is not the 400 error
    response. *)
Lemma callback_empty_error_counterexample :
  let req := mkRequest [("error", ""); ("code", "abc")] None in
  let res := run Sdk.sdk (callback req) Sample.authorizing in
  assoc "error" (args req) = Some "" /\
  outcome res <> inl (Json (PDict [("error", PStr "")]) 400) /\
  calls res
  = [(get_access_token (PStr "abc"), Returns (Sdk.token_info Sample.token))].
Proof.
  simpl. split; [reflexivity |]. split; [discriminate | reflexivity].
Qed.

Lemma callback_dispatch_witness :
  run Sdk.sdk (callback (Sample.query "error" "access_denied")) Sample.logged_out
  = mkResult (inl (Json (PDict [("error", PStr "access_denied")]) 400)) []
             Sample.logged_out.
Proof.
  apply (proj1 (callback_dispatch Sdk.sdk
                  (Sample.query "error" "access_denied") Sample.logged_out)
           "access_denied"); [reflexivity | discriminate].
Defined.

(** ** The proxied operations *)

Section Proxy.

Context {W : Type}.
Variable sdk : W -> call -> answer * W.
Variable format_value : pyval -> string.

(** An authenticated run: the gate passes, and the rest of the view
    function runs in the state the cache lookup left. *)
Lemma run_authenticated (r : route) (req : request) (w : W) :
  gated r = true ->
  passed (fst (sdk w get_cached_token)) = true ->
  run sdk (handle format_value r req) w
  = prepend (get_cached_token, fst (sdk w get_cached_token))
            (run sdk (after_gate format_value r req)
                 (snd (sdk w get_cached_token))).
Proof.
  intros Hg Hp. rewrite (run_handle_gated sdk format_value r req w Hg).
  destruct (sdk w get_cached_token) as [a w1]. simpl in *.
  destruct a as [v | e]; simpl in Hp; [| discriminate Hp].
  rewrite Hp. reflexivity.
Qed.

(** C8: an authenticated [POST /queue] whose JSON object has no
    [track_id] is answered 400 "Missing track_id parameter", and the
    cache lookup of the gate is the only call made. *)
Theorem queue_without_track_id (req : request) (w : W)
  (kv : list (string * pyval)) :
  passed (fst (sdk w get_cached_token)) = true ->
  json req = Some (PDict kv) ->
  assoc "track_id" kv = None ->
  let res := run sdk (handle format_value QueueSong req) w in
  outcome res
  = inl (Json (PDict [("error", PStr "Missing track_id parameter")]) 400) /\
  calls res = [(get_cached_token, fst (sdk w get_cached_token))] /\
  remote_calls (calls res) = [].
Proof.
  intros Hp Hj Hk res. subst res.
  rewrite (run_authenticated QueueSong req w eq_refl Hp).
  simpl. unfold queue_song_body, request_json. rewrite Hj. simpl.
  rewrite Hk. simpl. repeat split.
Qed.

(** C9: for an authenticated request, a required parameter that is
    present but false (an empty [track_ids] list, an empty [track_id]
    string, an empty [q]) is refused as missing with status 400, and
    the cache lookup of the gate is the only call made. *)
Theorem falsy_parameter_is_missing (w : W) :
  passed (fst (sdk w get_cached_token)) = true ->
  let gate := (get_cached_token, fst (sdk w get_cached_token)) in
  let w1 := snd (sdk w get_cached_token) in
  let missing (name : string) :=
    mkResult (inl (Json (PDict [("error", PStr name)]) 400)) [gate] w1 in
  (forall id req kv v,
      json req = Some (PDict kv) ->
      assoc "track_ids" kv = Some v -> truthy v = false ->
      run sdk (handle format_value (AddToPlaylist id) req) w
      = missing "Missing track_ids parameter") /\
  (forall req kv v,
      json req = Some (PDict kv) ->
      assoc "track_id" kv = Some v -> truthy v = false ->
      run sdk (handle format_value PlaySong req) w
      = missing "Missing track_id parameter") /\
  (forall req kv v,
      json req = Some (PDict kv) ->
      assoc "track_id" kv = Some v -> truthy v = false ->
      run sdk (handle format_value QueueSong req) w
      = missing "Missing track_id parameter") /\
  (forall req,
      assoc "q" (args req) = Some "" ->
      run sdk (handle format_value SearchSongs req) w
      = missing "Missing query parameter").
Proof.
  intros Hp gate w1 missing. subst gate w1 missing.
  repeat split.
  - intros id req kv v Hj Hk Hv.
    rewrite (run_authenticated (AddToPlaylist id) req w eq_refl Hp).
    simpl. unfold add_to_playlist_body, request_json. rewrite Hj. simpl.
    rewrite Hk, Hv. reflexivity.
  - intros req kv v Hj Hk Hv.
    rewrite (run_authenticated PlaySong req w eq_refl Hp).
    simpl. unfold play_song_body, request_json. rewrite Hj. simpl.
    rewrite Hk, Hv. reflexivity.
  - intros req kv v Hj Hk Hv.
    rewrite (run_authenticated QueueSong req w eq_refl Hp).
    simpl. unfold queue_song_body, request_json. rewrite Hj. simpl.
    rewrite Hk, Hv. reflexivity.
  - intros req Hq.
    rewrite (run_authenticated SearchSongs req w eq_refl Hp).
    simpl. unfold search_songs_body, args_get. rewrite Hq. reflexivity.
Qed.

(** C10: for an authenticated [PUT /play] with a non-empty [track_id],
    the one remote call is [start_playback] with the one-element list
    holding [spotify:track:] followed by the track id. *)
Theorem play_wraps_track_id (req : request) (w : W)
  (kv : list (string * pyval)) (track_id : string) :
  passed (fst (sdk w get_cached_token)) = true ->
  json req = Some (PDict kv) ->
  assoc "track_id" kv = Some (PStr track_id) ->
  track_id <> "" ->
  remote_calls (calls (run sdk (handle format_value PlaySong req) w))
  = [start_playback (PList [PStr ("spotify:track:" ++ track_id)])].
Proof.
  intros Hp Hj Hk Hne.
  rewrite (run_authenticated PlaySong req w eq_refl Hp).
  simpl. unfold play_song_body, request_json. rewrite Hj. simpl.
  rewrite Hk. rewrite (truthy_PStr track_id Hne). simpl.
  destruct (sdk (snd (sdk w get_cached_token)) _) as [a w2].
  destruct a as [v | [m | | | |]]; reflexivity.
Qed.

End Proxy.

Lemma queue_without_track_id_witness :
  let res := run Sdk.sdk (handle Sample.format QueueSong
                                 (Sample.body (PDict []))) Sample.logged_in in
  outcome res
  = inl (Json (PDict [("error", PStr "Missing track_id parameter")]) 400) /\
  calls res
  = [(get_cached_token, fst (Sdk.sdk Sample.logged_in get_cached_token))] /\
  remote_calls (calls res) = [].
Proof.
  apply (queue_without_track_id Sdk.sdk Sample.format
           (Sample.body (PDict [])) Sample.logged_in []); reflexivity.
Defined.

Lemma falsy_parameter_is_missing_witness :
  outcome (run Sdk.sdk
               (handle Sample.format (AddToPlaylist "pl1")
                       (Sample.body (PDict [("track_ids", PList [])])))
               Sample.logged_in)
  = inl (Json (PDict [("error", PStr "Missing track_ids parameter")]) 400) /\
  outcome (run Sdk.sdk
               (handle Sample.format PlaySong
                       (Sample.body (PDict [("track_id", PStr "")])))
               Sample.logged_in)
  = inl (Json (PDict [("error", PStr "Missing track_id parameter")]) 400) /\
  outcome (run Sdk.sdk
               (handle Sample.format SearchSongs (Sample.query "q" ""))
               Sample.logged_in)
  = inl (Json (PDict [("error", PStr "Missing query parameter")]) 400).
Proof.
  pose proof (falsy_parameter_is_missing Sdk.sdk Sample.format
                Sample.logged_in eq_refl) as (Hadd & Hplay & _ & Hsearch).
  split; [| split].
  - rewrite (Hadd "pl1" (Sample.body (PDict [("track_ids", PList [])]))
               [("track_ids", PList [])] (PList []) eq_refl eq_refl eq_refl).
    reflexivity.
  - rewrite (Hplay (Sample.body (PDict [("track_id", PStr "")]))
               [("track_id", PStr "")] (PStr "") eq_refl eq_refl eq_refl).
    reflexivity.
  - rewrite (Hsearch (Sample.query "q" "") eq_refl). reflexivity.
Defined.

Lemma play_wraps_track_id_witness :
  remote_calls
    (calls (run Sdk.sdk
                (handle Sample.format PlaySong
                        (Sample.body (PDict [("track_id", PStr "abc123")])))
                Sample.logged_in))
  = [start_playback (PList [PStr "spotify:track:abc123"])].
Proof.
  apply (play_wraps_track_id Sdk.sdk Sample.format
           (Sample.body (PDict [("track_id", PStr "abc123")]))
           Sample.logged_in [("track_id", PStr "abc123")] "abc123");
    [reflexivity | reflexivity | reflexivity | discriminate].
Defined.

(** ** Remote rejections *)

Section Rejection.

Context {W : Type}.
Variable sdk : W -> call -> answer * W.
Variable format_value : pyval -> string.

(** The remote API rejects every operation of the current request with
    the message [msg]: [w] is the state the request arrives in, and the
    remote call is made in the state the gate leaves. *)
Variable msg : string.
Variable w : W.
Hypothesis rejecting :
  forall c, is_remote c = true ->
            fst (sdk (snd (sdk w get_cached_token)) c)
            = Raises (SpotifyException msg).

Lemma run_rejected (A : Type) (c : call) (k : answer -> prog A) :
  is_remote c = true ->
  outcome (run sdk (Call c k) (snd (sdk w get_cached_token)))
  = outcome (run sdk (k (Raises (SpotifyException msg)))
                 (snd (sdk (snd (sdk w get_cached_token)) c))).
Proof.
  intros Hc. simpl. pose proof (rejecting c Hc) as H.
  destruct (sdk (snd (sdk w get_cached_token)) c) as [a w2].
  simpl in *. subst a. reflexivity.
Qed.

(** The four view functions with a [try] answer a remote rejection with
    400 and the remote message. *)
Lemma guarded_routes_answer_400 (r : route) (req : request) :
  catches_remote_errors r = true ->
  well_formed r req = true ->
  passed (fst (sdk w get_cached_token)) = true ->
  outcome (run sdk (handle format_value r req) w)
  = inl (Json (PDict [("error", PStr msg)]) 400).
Proof.
  intros Hc Hwf Hp.
  assert (Hg : gated r = true) by (destruct r; try discriminate Hc; reflexivity).
  rewrite (run_authenticated sdk format_value r req w Hg Hp).
  unfold prepend. cbn [outcome].
  destruct r; try discriminate Hc; cbn [after_gate].
  - unfold get_track_details_body. cbn [bind invoke try_except].
    rewrite run_rejected by reflexivity. reflexivity.
  - unfold add_to_playlist_body, request_json. simpl in Hwf.
    destruct (json req) as [[ | | | | | kv] |]; try discriminate Hwf.
    cbn [bind py_get]. unfold dict_get in Hwf. rewrite Hwf.
    cbn [negb bind invoke try_except].
    rewrite run_rejected by reflexivity. reflexivity.
  - unfold play_song_body, request_json. simpl in Hwf.
    destruct (json req) as [[ | | | | | kv] |]; try discriminate Hwf.
    cbn [bind py_get]. unfold dict_get in Hwf. rewrite Hwf.
    cbn [negb bind invoke try_except].
    rewrite run_rejected by reflexivity. reflexivity.
  - unfold queue_song_body, request_json. simpl in Hwf.
    destruct (json req) as [[ | | | | | kv] |]; try discriminate Hwf.
    cbn [bind py_get]. unfold dict_get in Hwf. rewrite Hwf.
    cbn [negb bind invoke try_except].
    rewrite run_rejected by reflexivity. reflexivity.
Qed.

(** C4 fails on the code: [GET /playlists] and [GET /search] call the
    remote API outside any [try], so a remote rejection of an
    authenticated, well-formed request leaves the view function as an
    exception instead of the 400 response with the remote message. *)
Theorem unguarded_routes_let_rejection_escape
  (r : route) (req : request) :
  gated r = true ->
  catches_remote_errors r = false ->
  well_formed r req = true ->
  passed (fst (sdk w get_cached_token)) = true ->
  outcome (run sdk (handle format_value r req) w)
  = inr (SpotifyException msg).
Proof.
  intros Hg Hc Hwf Hp.
  rewrite (run_authenticated sdk format_value r req w Hg Hp).
  unfold prepend. cbn [outcome].
  destruct r; try discriminate Hg; try discriminate Hc; cbn [after_gate].
  - unfold search_songs_body. simpl in Hwf. rewrite Hwf.
    cbn [negb bind invoke].
    rewrite run_rejected by reflexivity. reflexivity.
  - unfold get_playlists_body. cbn [bind invoke].
    rewrite run_rejected by reflexivity. reflexivity.
Qed.

End Rejection.

Lemma sample_rejecting (c : call) :
  is_remote c = true ->
  fst (Sdk.sdk (snd (Sdk.sdk Sample.logged_in_rejecting get_cached_token)) c)
  = Raises (SpotifyException "http status: 403, code: -1 - Forbidden").
Proof. destruct c; intros H; try discriminate H; reflexivity. Qed.

Lemma unguarded_routes_let_rejection_escape_witness :
  outcome (run Sdk.sdk (handle Sample.format GetPlaylists (Sample.query "q" "song"))
               Sample.logged_in_rejecting)
  = inr (SpotifyException "http status: 403, code: -1 - Forbidden") /\
  outcome (run Sdk.sdk (handle Sample.format SearchSongs (Sample.query "q" "song"))
               Sample.logged_in_rejecting)
  = inr (SpotifyException "http status: 403, code: -1 - Forbidden").
Proof.
  split.
  - apply (unguarded_routes_let_rejection_escape Sdk.sdk Sample.format
             "http status: 403, code: -1 - Forbidden"
             Sample.logged_in_rejecting sample_rejecting
             GetPlaylists (Sample.query "q" "song"));
      reflexivity.
  - apply (unguarded_routes_let_rejection_escape Sdk.sdk Sample.format
             "http status: 403, code: -1 - Forbidden"
             Sample.logged_in_rejecting sample_rejecting
             SearchSongs (Sample.query "q" "song"));
      reflexivity.
Defined.

(** ** The search projection *)

Lemma mapM_artist_info (arts : list pyval) :
  forallb is_dict arts = true ->
  mapM artist_info arts = Ret (map artist_projection arts).
Proof.
  induction arts as [| a rest IH]; simpl; intros H; [reflexivity |].
  apply andb_true_iff in H as [Ha Hrest].
  destruct a; try discriminate Ha. simpl.
  rewrite (IH Hrest). reflexivity.
Qed.

Lemma track_info_ok (t : pyval) :
  track_ok t = true -> track_info t = Ret (track_projection t).
Proof.
  intros Hok. destruct t; try discriminate Hok.
  simpl in Hok. apply andb_true_iff in Hok as [Ha Hb].
  unfold track_info, album_get, track_projection, artists_of, album_of, dict_get.
  cbn [py_get bind].
  destruct (assoc "artists" kv) as [[ | | | | arts | ] |];
    try discriminate Ha;
    destruct (assoc "album" kv) as [[ | | | | | akv] |];
    try discriminate Hb;
    cbn [py_iter py_get bind];
    try rewrite (mapM_artist_info arts Ha);
    reflexivity.
Qed.

Lemma mapM_track_info (items : list pyval) :
  forallb track_ok items = true ->
  mapM track_info items = Ret (map track_projection items).
Proof.
  induction items as [| t rest IH]; simpl; intros H; [reflexivity |].
  apply andb_true_iff in H as [Ht Hrest].
  rewrite (track_info_ok t Ht), (IH Hrest). reflexivity.
Qed.

Lemma simplify_results_ok (results : pyval) (items : list pyval) :
  search_result_of results items ->
  simplify_results results = Ret (jsonify (PList (map track_projection items))).
Proof.
  intros (rkv & tkv & -> & Ht & Hi & Hok).
  unfold simplify_results. cbn [py_get bind]. rewrite Ht.
  cbn [py_get bind]. rewrite Hi. cbn [py_iter bind].
  rewrite (mapM_track_info items Hok). reflexivity.
Qed.

Lemma artist_projection_reduced (a : pyval) :
  is_dict a = true -> reduced_artist a (artist_projection a).
Proof.
  intros Ha. destruct a; try discriminate Ha.
  exists kv. eexists. split; [reflexivity |]. split; [reflexivity |].
  split; [reflexivity |].
  intros k Hk. simpl in Hk.
  destruct Hk as [<- | [<- | [<- | []]]]; reflexivity.
Qed.

Lemma artists_projection_reduced (arts : list pyval) :
  forallb is_dict arts = true ->
  Forall2 reduced_artist arts (map artist_projection arts).
Proof.
  induction arts as [| a rest IH]; simpl; intros H; [constructor |].
  apply andb_true_iff in H as [Ha Hrest].
  constructor; [apply artist_projection_reduced; exact Ha | exact (IH Hrest)].
Qed.

Lemma track_projection_reduced (t : pyval) :
  track_ok t = true -> reduced_track t (track_projection t).
Proof.
  intros Hok. destruct t; try discriminate Hok.
  simpl in Hok. apply andb_true_iff in Hok as [Ha _].
  exists kv. eexists. split; [reflexivity |]. split; [reflexivity |].
  split; [reflexivity |]. split; [| split].
  - intros k Hk. simpl in Hk.
    destruct Hk as [<- | [<- | [<- | [<- | [<- | [<- | [<- | []]]]]]]];
      reflexivity.
  - eexists. split; [reflexivity |].
    apply artists_projection_reduced.
    unfold artists_of.
    destruct (assoc "artists" kv) as [[ | | | | arts | ] |];
      try discriminate Ha; try reflexivity. exact Ha.
  - eexists. split; [reflexivity |]. split; [reflexivity |].
    intros k Hk. simpl in Hk.
    destruct Hk as [<- | [<- | [<- | [<- | [<- | [<- | []]]]]]]; reflexivity.
Qed.

Lemma tracks_projection_reduced (items : list pyval) :
  forallb track_ok items = true ->
  Forall2 reduced_track items (map track_projection items).
Proof.
  induction items as [| t rest IH]; simpl; intros H; [constructor |].
  apply andb_true_iff in H as [Ht Hrest].
  constructor; [apply track_projection_reduced; exact Ht | exact (IH Hrest)].
Qed.

Section Search.

Context {W : Type}.
Variable sdk : W -> call -> answer * W.
Variable format_value : pyval -> string.

(** C6, amended: when the remote search result holds N track items, the
    response of an authenticated [GET /search] is an array of N
    objects, one per item and in the same order, each with exactly the
    fields of the reduced set.  A scalar or album field the remote item
    lacks is [None]; an item without [artists] gets the empty list, and
    an item without [album] gets the album summary whose fields are all
    [None]. *)
Theorem search_projects_each_track
  (req : request) (w : W) (q : string) (results : pyval) (items : list pyval) :
  passed (fst (sdk w get_cached_token)) = true ->
  assoc "q" (args req) = Some q ->
  q <> "" ->
  fst (sdk (snd (sdk w get_cached_token)) (search (PStr q) "track"))
  = Returns results ->
  search_result_of results items ->
  exists outs,
    outcome (run sdk (handle format_value SearchSongs req) w)
    = inl (Json (PList outs) 200) /\
    List.length outs = List.length items /\
    Forall2 reduced_track items outs /\
    (forall kv, In (PDict kv) items -> assoc "artists" kv = None ->
                assoc "album" kv = None ->
                exists okv,
                  In (PDict okv) outs /\
                  assoc "artists" okv = Some (PList []) /\
                  assoc "album" okv
                  = Some (PDict (map (fun k => (k, PNone)) album_fields))).
Proof.
  intros Hp Hq Hne Hs Hres.
  exists (map track_projection items).
  rewrite (run_authenticated sdk format_value SearchSongs req w eq_refl Hp).
  unfold prepend. cbn [outcome after_gate].
  unfold search_songs_body, args_get. rewrite Hq.
  rewrite (truthy_PStr q Hne). cbn [negb bind invoke run].
  destruct (sdk (snd (sdk w get_cached_token)) (search (PStr q) "track"))
    as [a w2].
  simpl in Hs. subst a. cbn [outcome bind].
  rewrite (simplify_results_ok results items Hres). cbn [run outcome].
  destruct Hres as (rkv & tkv & _ & _ & _ & Hok).
  split; [reflexivity |]. split; [apply length_map |].
  split; [apply tracks_projection_reduced; exact Hok |].
  intros kv Hin Hart Halb. eexists.
  split; [apply (in_map track_projection _ _ Hin) |].
  unfold artists_of, album_of. rewrite Hart, Halb.
  split; reflexivity.
Qed.

End Search.

(** C6, as stated, fails: a remote item with no field at all is projected
    to an object whose [artists] is the empty list, not [None]. *)
Lemma search_missing_artists_counterexample :
  let results := PDict [("tracks", PDict [("items", PList [PDict []])])] in
  exists o,
    simplify_results results = Ret (jsonify (PList [o])) /\
    assoc "artists" [] = @None pyval /\
    ~ missing_as_null (PDict []) o.
Proof.
  simpl. eexists. split; [reflexivity |]. split; [reflexivity |].
  intros H.
  specialize (H [] _ "artists" eq_refl eq_refl).
  assert (Hin : In "artists" reduced_fields) by (simpl; auto).
  specialize (H Hin eq_refl). simpl in H. discriminate H.
Qed.

Lemma search_projects_each_track_witness :
  exists outs,
    outcome (run Sdk.sdk (handle Sample.format SearchSongs
                                 (Sample.query "q" "song")) Sample.logged_in)
    = inl (Json (PList outs) 200) /\
    List.length outs = 2%nat /\
    Forall2 reduced_track [Sample.a_track; PDict []] outs.
Proof.
  destruct (search_projects_each_track Sdk.sdk Sample.format
              (Sample.query "q" "song") Sample.logged_in "song"
              Sample.results [Sample.a_track; PDict []]
              eq_refl eq_refl ltac:(discriminate) eq_refl)
    as (outs & Hout & Hlen & Hred & _).
  - exists [("tracks", PDict [("items", PList [Sample.a_track; PDict []])])].
    exists [("items", PList [Sample.a_track; PDict []])].
    repeat split.
  - exists outs. auto.
Defined.

(** ** Call discipline and response shapes of all routes *)

Lemma silent_cases {A : Type} (p : prog A) :
  silent p -> (exists a, p = Ret a) \/ (exists e, p = Raise e).
Proof.
  destruct p; simpl; intros H; [left | right | contradiction]; eexists; reflexivity.
Qed.

(** The search projection ends in a 200 array or in an exception. *)
Lemma simplify_results_cases (results : pyval) :
  (exists outs, simplify_results results = Ret (Json (PList outs) 200)) \/
  (exists e, simplify_results results = Raise e).
Proof.
  unfold simplify_results.
  destruct (silent_cases _ (silent_py_get results "tracks" (PDict [])))
    as [[tracks_obj ->] | [e ->]]; [| right; eexists; reflexivity].
  cbn [bind].
  destruct (silent_cases _ (silent_py_get tracks_obj "items" (PList [])))
    as [[tracks ->] | [e ->]]; [| right; eexists; reflexivity].
  cbn [bind].
  destruct (silent_cases _ (silent_py_iter tracks))
    as [[items ->] | [e ->]]; [| right; eexists; reflexivity].
  cbn [bind].
  destruct (silent_cases _ (silent_mapM track_info items silent_track_info))
    as [[outs ->] | [e ->]]; [left | right]; eexists; reflexivity.
Qed.

Ltac one_remote_call :=
  right; eexists; eexists; split; [| reflexivity]; reflexivity.

Section Discipline.

Context {W : Type}.
Variable sdk : W -> call -> answer * W.
Variable format_value : pyval -> string.

(** What a gated view function does after the gate: it makes no call or
    one remote call, and it ends in a 200 response, in a 400 response of
    the shape [{"error": text}], or in an exception. *)
Lemma after_gate_cases (r : route) (req : request) (w : W) :
  gated r = true ->
  let res := run sdk (after_gate format_value r req) w in
  (calls res = [] \/
   exists c a, is_remote c = true /\ calls res = [(c, a)]) /\
  ((exists body, outcome res = inl (Json body 200)) \/
   (exists m, outcome res = inl (Json (PDict [("error", PStr m)]) 400)) \/
   (exists e, outcome res = inr e)).
Proof.
  intros Hg res. subst res.
  destruct r; try discriminate Hg; cbn [after_gate].
  - unfold search_songs_body.
    destruct (truthy (args_get req "q")); cbn [negb bind invoke run].
    + destruct (sdk w (search (args_get req "q") "track")) as [[v | e] w2];
        cbn [bind outcome calls].
      * destruct (simplify_results_cases v) as [[outs ->] | [e ->]];
          cbn [run outcome calls];
          (split; [one_remote_call |]);
          [left | right; right]; eexists; reflexivity.
      * cbn [run outcome calls].
        split; [one_remote_call |].
        right; right; eexists; reflexivity.
    + split; [left; reflexivity | right; left; eexists; reflexivity].
  - unfold get_track_details_body. cbn [bind invoke try_except run].
    destruct (sdk w (track id)) as [[v | [m | | | | n]] w2];
      cbn [bind try_except remote_error run outcome calls];
      (split; [one_remote_call |]);
      first [ left; eexists; reflexivity
            | right; left; eexists; reflexivity
            | right; right; eexists; reflexivity ].
  - unfold get_playlists_body. cbn [bind invoke run].
    destruct (sdk w current_user_playlists) as [[v | e] w2];
      cbn [bind run outcome calls];
      (split; [one_remote_call |]);
      first [ left; eexists; reflexivity
            | right; right; eexists; reflexivity ].
  - unfold add_to_playlist_body, request_json.
    destruct (json req) as [b |]; cbn [bind run outcome calls];
      [| split; [left; reflexivity | right; right; eexists; reflexivity]].
    destruct b; cbn [py_get bind run outcome calls];
      try (split; [left; reflexivity | right; right; eexists; reflexivity]).
    destruct (truthy (dict_get kv "track_ids" PNone)) eqn:Ht;
      unfold dict_get in Ht; rewrite Ht;
      cbn [negb bind invoke try_except run outcome calls];
      [| split; [left; reflexivity | right; left; eexists; reflexivity]].
    destruct (sdk w _) as [[v | [m | | | | n]] w2];
      cbn [bind try_except remote_error run outcome calls];
      (split; [one_remote_call |]);
      first [ left; eexists; reflexivity
            | right; left; eexists; reflexivity
            | right; right; eexists; reflexivity ].
  - unfold play_song_body, request_json.
    destruct (json req) as [b |]; cbn [bind run outcome calls];
      [| split; [left; reflexivity | right; right; eexists; reflexivity]].
    destruct b; cbn [py_get bind run outcome calls];
      try (split; [left; reflexivity | right; right; eexists; reflexivity]).
    destruct (truthy (dict_get kv "track_id" PNone)) eqn:Ht;
      unfold dict_get in Ht; rewrite Ht;
      cbn [negb bind invoke try_except run outcome calls];
      [| split; [left; reflexivity | right; left; eexists; reflexivity]].
    destruct (sdk w _) as [[v | [m | | | | n]] w2];
      cbn [bind try_except remote_error run outcome calls];
      (split; [one_remote_call |]);
      first [ left; eexists; reflexivity
            | right; left; eexists; reflexivity
            | right; right; eexists; reflexivity ].
  - unfold queue_song_body, request_json.
    destruct (json req) as [b |]; cbn [bind run outcome calls];
      [| split; [left; reflexivity | right; right; eexists; reflexivity]].
    destruct b; cbn [py_get bind run outcome calls];
      try (split; [left; reflexivity | right; right; eexists; reflexivity]).
    destruct (truthy (dict_get kv "track_id" PNone)) eqn:Ht;
      unfold dict_get in Ht; rewrite Ht;
      cbn [negb bind invoke try_except run outcome calls];
      [| split; [left; reflexivity | right; left; eexists; reflexivity]].
    destruct (sdk w _) as [[v | [m | | | | n]] w2];
      cbn [bind try_except remote_error run outcome calls];
      (split; [one_remote_call |]);
      first [ left; eexists; reflexivity
            | right; left; eexists; reflexivity
            | right; right; eexists; reflexivity ].
Qed.

End Discipline.

Lemma truthy_args_get (req : request) (k : string) :
  truthy (args_get req k) = true -> exists s, args_get req k = PStr s.
Proof.
  unfold args_get. destruct (assoc k (args req)) as [s |]; simpl; intros H;
    [exists s; reflexivity | discriminate H].
Qed.

Section Routes.

Context {W : Type}.
Variable sdk : W -> call -> answer * W.
Variable format_value : pyval -> string.

(** X1: the calls of a request, for every route and environment.
    [/login] asks for the authorization URL and nothing else; [/callback]
    makes no call or the one exchange of the [code] it was given; a gated
    route looks up the cached token and then makes no call or one remote
    call.  No call is ever repeated, and no route but [/callback]
    exchanges a code. *)
Theorem call_discipline (r : route) (req : request) (w : W) :
  let l := map fst (calls (run sdk (handle format_value r req) w)) in
  match r with
  | Login => l = [get_authorize_url]
  | Callback => l = [] \/ l = [get_access_token (args_get req "code")]
  | _ =>
      l = [get_cached_token] \/
      exists c, is_remote c = true /\ l = [get_cached_token; c]
  end.
Proof.
  assert (Hgated : gated r = true ->
            let l := map fst (calls (run sdk (handle format_value r req) w)) in
            l = [get_cached_token] \/
            exists c, is_remote c = true /\ l = [get_cached_token; c]).
  { intros Hg l. subst l.
    rewrite (run_handle_gated sdk format_value r req w Hg).
    destruct (sdk w get_cached_token) as [[v | e] w1];
      [destruct (truthy v) |]; try (left; reflexivity).
    destruct (after_gate_cases sdk format_value r req w1 Hg)
      as [[Hc | (c & a & Hrem & Hc)] _]; cbn [prepend calls]; rewrite Hc.
    - left; reflexivity.
    - right. exists c. split; [exact Hrem | reflexivity]. }
  destruct r; try (apply Hgated; reflexivity).
  - simpl. destruct (sdk w get_authorize_url) as [[v | e] w1]; reflexivity.
  - cbn [handle]. unfold callback.
    destruct (truthy (args_get req "error")); [left; reflexivity |].
    destruct (truthy (args_get req "code")); [| left; reflexivity].
    right. cbn [bind invoke run].
    destruct (sdk w (get_access_token (args_get req "code")))
      as [[v | e] w1]; cbn [bind]; [destruct (truthy v) |]; reflexivity.
Qed.

(** X2: the responses of every route and environment.  Only [/login]
    redirects.  A JSON response has status 200, 400 or 401; 401 comes from
    gated routes only, and every 400 or 401 body is an object with the one
    key [error] holding a text. *)
Theorem response_shapes (r : route) (req : request) (w : W) :
  match outcome (run sdk (handle format_value r req) w) with
  | inl (Redirect _) => r = Login
  | inl (Json body st) =>
      st = 200%Z \/
      ((st = 400%Z \/ (st = 401%Z /\ gated r = true)) /\
       exists m, body = PDict [("error", PStr m)])
  | inr _ => True
  end.
Proof.
  assert (Hgated : gated r = true ->
            match outcome (run sdk (handle format_value r req) w) with
            | inl (Redirect _) => r = Login
            | inl (Json body st) =>
                st = 200%Z \/
                ((st = 400%Z \/ (st = 401%Z /\ gated r = true)) /\
                 exists m, body = PDict [("error", PStr m)])
            | inr _ => True
            end).
  { intros Hg.
    rewrite (run_handle_gated sdk format_value r req w Hg).
    destruct (sdk w get_cached_token) as [[v | e] w1];
      [destruct (truthy v) |]; cbn [outcome prepend]; try exact I.
    - destruct (after_gate_cases sdk format_value r req w1 Hg)
        as [_ [[body Ho] | [[m Ho] | [e Ho]]]]; rewrite Ho.
      + left; reflexivity.
      + right. split; [left; reflexivity | exists m; reflexivity].
      + exact I.
    - right. split; [right; split; [reflexivity | exact Hg] |].
      eexists; reflexivity. }
  destruct r; try (apply Hgated; reflexivity).
  - simpl. destruct (sdk w get_authorize_url) as [[v | e] w1];
      cbn [outcome]; [reflexivity | exact I].
  - cbn [handle]. unfold callback.
    destruct (truthy (args_get req "error")) eqn:He.
    + destruct (truthy_args_get req "error" He) as [s ->]. cbn [run outcome].
      right. split; [left; reflexivity | exists s; reflexivity].
    + destruct (truthy (args_get req "code")).
      * cbn [bind invoke run].
        destruct (sdk w (get_access_token (args_get req "code")))
          as [[v | e] w1]; cbn [bind]; [destruct (truthy v) |];
          cbn [run outcome].
        -- left; reflexivity.
        -- right. split; [left; reflexivity | eexists; reflexivity].
        -- exact I.
      * cbn [run outcome].
        right. split; [left; reflexivity | eexists; reflexivity].
Qed.

(** X3: a gated route answers 401 exactly when the cache lookup returned a
    false value; once the lookup returns a token, no parameter and no
    remote answer can lead to a 401. *)
Theorem unauthorized_iff_gate_fails (r : route) (req : request) (w : W) :
  gated r = true ->
  (exists body, outcome (run sdk (handle format_value r req) w)
                = inl (Json body 401)) <->
  (exists v, fst (sdk w get_cached_token) = Returns v /\ truthy v = false).
Proof.
  intros Hg. rewrite (run_handle_gated sdk format_value r req w Hg).
  destruct (sdk w get_cached_token) as [[v | e] w1]; cbn [fst].
  - destruct (truthy v) eqn:Hv; cbn [outcome prepend].
    + split.
      * intros [body Hb].
        destruct (after_gate_cases sdk format_value r req w1 Hg)
          as [_ [[b Ho] | [[m Ho] | [e Ho]]]];
          rewrite Ho in Hb; discriminate Hb.
      * intros (v' & Hv' & Hf). injection Hv' as <-. congruence.
    + split.
      * intros _. exists v. split; [reflexivity | exact Hv].
      * intros _. eexists. reflexivity.
  - cbn [outcome]. split.
    + intros [body Hb]. discriminate Hb.
    + intros (v & Hv & _). discriminate Hv.
Qed.

End Routes.

Lemma unauthorized_iff_gate_fails_witness :
  gated PlaySong = true /\
  ((exists body,
       outcome (run Sdk.sdk (handle Sample.format PlaySong
                                    (Sample.body (PDict []))) Sample.revoked)
       = inl (Json body 401)) <->
   (exists v, fst (Sdk.sdk Sample.revoked get_cached_token) = Returns v /\
              truthy v = false)).
Proof.
  split; [reflexivity |].
  apply (unauthorized_iff_gate_fails Sdk.sdk Sample.format PlaySong
           (Sample.body (PDict [])) Sample.revoked).
  reflexivity.
Defined.

(** ** What is forwarded and what comes back *)

Section Forwarding.

Context {W : Type}.
Variable sdk : W -> call -> answer * W.
Variable format_value : pyval -> string.
Variable w : W.
Hypothesis authenticated : passed (fst (sdk w get_cached_token)) = true.

Let w1 : W := snd (sdk w get_cached_token).

(** X4: the two read routes hand the path id to the remote API as it is
    and return the remote value unchanged, with status 200. *)
Theorem remote_payload_passes_through :
  (forall id req v,
      fst (sdk w1 (track id)) = Returns v ->
      let res := run sdk (handle format_value (GetTrackDetails id) req) w in
      outcome res = inl (Json v 200) /\ remote_calls (calls res) = [track id]) /\
  (forall req v,
      fst (sdk w1 current_user_playlists) = Returns v ->
      let res := run sdk (handle format_value GetPlaylists req) w in
      outcome res = inl (Json v 200) /\
      remote_calls (calls res) = [current_user_playlists]).
Proof.
  split.
  - intros id req v Hv res. subst res.
    rewrite (run_authenticated sdk format_value (GetTrackDetails id) req w
               eq_refl authenticated).
    fold w1. cbn [after_gate prepend outcome calls].
    unfold get_track_details_body. cbn [bind invoke try_except run].
    destruct (sdk w1 (track id)) as [a w2]. simpl in Hv. subst a.
    split; reflexivity.
  - intros req v Hv res. subst res.
    rewrite (run_authenticated sdk format_value GetPlaylists req w
               eq_refl authenticated).
    fold w1. cbn [after_gate prepend outcome calls].
    unfold get_playlists_body. cbn [bind invoke run].
    destruct (sdk w1 current_user_playlists) as [a w2]. simpl in Hv. subst a.
    split; reflexivity.
Qed.

(** X5: the two write routes [POST /playlists/<id>/tracks] and
    [POST /queue] forward their parameter to the remote API as it came in
    the body (no URI is built, unlike [PUT /play]), and answer
    [{"status": "success"}] whatever value the remote call returns. *)
Theorem writes_forward_parameters :
  (forall id req kv track_ids v,
      json req = Some (PDict kv) ->
      assoc "track_ids" kv = Some track_ids ->
      truthy track_ids = true ->
      fst (sdk w1 (playlist_add_items id track_ids)) = Returns v ->
      let res := run sdk (handle format_value (AddToPlaylist id) req) w in
      outcome res = inl (Json (PDict [("status", PStr "success")]) 200) /\
      remote_calls (calls res) = [playlist_add_items id track_ids]) /\
  (forall req kv track_id v,
      json req = Some (PDict kv) ->
      assoc "track_id" kv = Some track_id ->
      truthy track_id = true ->
      fst (sdk w1 (add_to_queue track_id)) = Returns v ->
      let res := run sdk (handle format_value QueueSong req) w in
      outcome res = inl (Json (PDict [("status", PStr "success")]) 200) /\
      remote_calls (calls res) = [add_to_queue track_id]).
Proof.
  split.
  - intros id req kv track_ids v Hj Hk Ht Hv res. subst res.
    rewrite (run_authenticated sdk format_value (AddToPlaylist id) req w
               eq_refl authenticated).
    fold w1. cbn [after_gate prepend outcome calls].
    unfold add_to_playlist_body, request_json. rewrite Hj.
    cbn [bind py_get]. rewrite Hk, Ht. cbn [negb bind invoke try_except run].
    destruct (sdk w1 (playlist_add_items id track_ids)) as [a w2].
    simpl in Hv. subst a. split; reflexivity.
  - intros req kv track_id v Hj Hk Ht Hv res. subst res.
    rewrite (run_authenticated sdk format_value QueueSong req w
               eq_refl authenticated).
    fold w1. cbn [after_gate prepend outcome calls].
    unfold queue_song_body, request_json. rewrite Hj.
    cbn [bind py_get]. rewrite Hk, Ht. cbn [negb bind invoke try_except run].
    destruct (sdk w1 (add_to_queue track_id)) as [a w2].
    simpl in Hv. subst a. split; reflexivity.
Qed.

(** X6: [GET /search] with a non-empty [q] makes one remote call, the
    search for [q] restricted to type [track], whatever the remote API
    answers. *)
Theorem search_forwards_query (req : request) (q : string) :
  assoc "q" (args req) = Some q ->
  q <> "" ->
  remote_calls (calls (run sdk (handle format_value SearchSongs req) w))
  = [search (PStr q) "track"].
Proof.
  intros Hq Hne.
  rewrite (run_authenticated sdk format_value SearchSongs req w
             eq_refl authenticated).
  fold w1. cbn [after_gate prepend calls].
  unfold search_songs_body, args_get. rewrite Hq, (truthy_PStr q Hne).
  cbn [negb bind invoke run].
  destruct (sdk w1 (search (PStr q) "track")) as [[v | e] w2];
    cbn [bind calls]; [| reflexivity].
  destruct (run_silent sdk (simplify_results v) w2
              (silent_simplify_results v)) as [Hc _].
  rewrite Hc. reflexivity.
Qed.

End Forwarding.

Lemma remote_payload_passes_through_witness :
  let res := run Sdk.sdk (handle Sample.format (GetTrackDetails "abc123")
                                 (Sample.query "q" "song")) Sample.logged_in in
  outcome res = inl (Json Sample.a_track 200) /\
  remote_calls (calls res) = [track "abc123"].
Proof.
  apply (proj1 (remote_payload_passes_through Sdk.sdk Sample.format
                  Sample.logged_in eq_refl)).
  reflexivity.
Defined.

Lemma writes_forward_parameters_witness :
  let req := Sample.body (PDict [("track_id", PStr "abc123")]) in
  let res := run Sdk.sdk (handle Sample.format QueueSong req)
                 Sample.logged_in in
  outcome res = inl (Json (PDict [("status", PStr "success")]) 200) /\
  remote_calls (calls res) = [add_to_queue (PStr "abc123")].
Proof.
  apply (proj2 (writes_forward_parameters Sdk.sdk Sample.format
                  Sample.logged_in eq_refl)
           (Sample.body (PDict [("track_id", PStr "abc123")]))
           [("track_id", PStr "abc123")] (PStr "abc123") PNone);
    reflexivity.
Defined.

Lemma search_forwards_query_witness :
  remote_calls
    (calls (run Sdk.sdk (handle Sample.format SearchSongs
                                (Sample.query "q" "song")) Sample.logged_in))
  = [search (PStr "song") "track"].
Proof.
  apply (search_forwards_query Sdk.sdk Sample.format Sample.logged_in eq_refl
           (Sample.query "q" "song") "song");
    [reflexivity | discriminate].
Defined.

(** ** Exceptions that no view function handles *)

Section Escapes.

Context {W : Type}.
Variable sdk : W -> call -> answer * W.
Variable format_value : pyval -> string.

(** X7: when the cache lookup itself raises, every gated view function
    lets the exception out: no 401 is built and nothing else is called. *)
Theorem gate_exception_escapes
  (r : route) (req : request) (w : W) (e : exn) :
  gated r = true ->
  fst (sdk w get_cached_token) = Raises e ->
  let res := run sdk (handle format_value r req) w in
  outcome res = inr e /\ calls res = [(get_cached_token, Raises e)].
Proof.
  intros Hg He res. subst res.
  rewrite (run_handle_gated sdk format_value r req w Hg).
  destruct (sdk w get_cached_token) as [a w1]. simpl in He. subst a.
  split; reflexivity.
Qed.

(** X8: the [except] clauses catch [SpotifyException] only.  When the
    remote call of an authenticated, well-formed request raises anything
    else, the exception leaves the view function on every gated route,
    the four with a [try] included. *)
Theorem foreign_exception_escapes
  (r : route) (req : request) (w : W) (e : exn) :
  gated r = true ->
  well_formed r req = true ->
  passed (fst (sdk w get_cached_token)) = true ->
  (forall c, is_remote c = true ->
             fst (sdk (snd (sdk w get_cached_token)) c) = Raises e) ->
  (forall m, e <> SpotifyException m) ->
  outcome (run sdk (handle format_value r req) w) = inr e.
Proof.
  intros Hg Hwf Hp Hrej Hne.
  rewrite (run_authenticated sdk format_value r req w Hg Hp).
  cbn [prepend outcome].
  set (w1 := snd (sdk w get_cached_token)) in *.
  assert (Hcall : forall c (k : answer -> prog response),
             is_remote c = true ->
             outcome (run sdk (Call c k) w1)
             = outcome (run sdk (k (Raises e)) (snd (sdk w1 c)))).
  { intros c k Hc. simpl. pose proof (Hrej c Hc) as H.
    destruct (sdk w1 c) as [a w2]. simpl in *. subst a. reflexivity. }
  assert (Htry : try_except (Raise e) remote_error = Raise e).
  { destruct e; try reflexivity. exfalso. apply (Hne msg). reflexivity. }
  destruct r; try discriminate Hg; cbn [after_gate].
  - unfold search_songs_body. simpl in Hwf. rewrite Hwf.
    cbn [negb bind invoke]. rewrite Hcall by reflexivity. reflexivity.
  - unfold get_track_details_body. cbn [bind invoke try_except].
    rewrite Hcall by reflexivity. cbn [bind]. rewrite Htry. reflexivity.
  - unfold get_playlists_body. cbn [bind invoke].
    rewrite Hcall by reflexivity. reflexivity.
  - unfold add_to_playlist_body, request_json. simpl in Hwf.
    destruct (json req) as [[ | | | | | kv] |]; try discriminate Hwf.
    cbn [bind py_get]. unfold dict_get in Hwf. rewrite Hwf.
    cbn [negb bind invoke try_except].
    rewrite Hcall by reflexivity. cbn [bind]. rewrite Htry. reflexivity.
  - unfold play_song_body, request_json. simpl in Hwf.
    destruct (json req) as [[ | | | | | kv] |]; try discriminate Hwf.
    cbn [bind py_get]. unfold dict_get in Hwf. rewrite Hwf.
    cbn [negb bind invoke try_except].
    rewrite Hcall by reflexivity. cbn [bind]. rewrite Htry. reflexivity.
  - unfold queue_song_body, request_json. simpl in Hwf.
    destruct (json req) as [[ | | | | | kv] |]; try discriminate Hwf.
    cbn [bind py_get]. unfold dict_get in Hwf. rewrite Hwf.
    cbn [negb bind invoke try_except].
    rewrite Hcall by reflexivity. cbn [bind]. rewrite Htry. reflexivity.
Qed.

(** X9: an authenticated request to one of the three routes that read a
    JSON body, with a body that is JSON but not an object (a list, a
    number, a string, [null]), fails with [AttributeError] on
    [request.json.get]; no 400 is built and no remote call is made. *)
Theorem non_object_body_raises (req : request) (w : W) (b : pyval) :
  passed (fst (sdk w get_cached_token)) = true ->
  json req = Some b ->
  is_dict b = false ->
  forall r,
    (exists id, r = AddToPlaylist id) \/ r = PlaySong \/ r = QueueSong ->
    let res := run sdk (handle format_value r req) w in
    outcome res = inr AttributeError /\
    calls res = [(get_cached_token, fst (sdk w get_cached_token))].
Proof.
  intros Hp Hj Hb r Hr res. subst res.
  assert (Hg : gated r = true)
    by (destruct Hr as [[id ->] | [-> | ->]]; reflexivity).
  rewrite (run_authenticated sdk format_value r req w Hg Hp).
  cbn [prepend outcome calls].
  destruct Hr as [[id ->] | [-> | ->]]; cbn [after_gate];
    unfold add_to_playlist_body, play_song_body, queue_song_body, request_json;
    rewrite Hj; destruct b; try discriminate Hb; split; reflexivity.
Qed.

End Escapes.

Lemma gate_exception_escapes_witness :
  let res := run Faulty.offline
                 (handle Sample.format GetPlaylists (Sample.query "q" "song"))
                 tt in
  outcome res = inr (OtherError "ConnectionError") /\
  calls res = [(get_cached_token, Raises (OtherError "ConnectionError"))].
Proof.
  apply (gate_exception_escapes Faulty.offline Sample.format GetPlaylists
           (Sample.query "q" "song") tt (OtherError "ConnectionError"));
    reflexivity.
Defined.

Lemma unreachable_rejects (c : call) :
  is_remote c = true ->
  fst (Sdk.sdk (snd (Sdk.sdk Faulty.logged_in_unreachable get_cached_token)) c)
  = Raises (OtherError "ConnectionError").
Proof. destruct c; intros H; try discriminate H; reflexivity. Qed.

Lemma foreign_exception_escapes_witness :
  outcome (run Sdk.sdk
               (handle Sample.format (GetTrackDetails "abc123")
                       (Sample.query "q" "song"))
               Faulty.logged_in_unreachable)
  = inr (OtherError "ConnectionError").
Proof.
  apply (foreign_exception_escapes Sdk.sdk Sample.format
           (GetTrackDetails "abc123") (Sample.query "q" "song")
           Faulty.logged_in_unreachable (OtherError "ConnectionError"));
    [reflexivity | reflexivity | reflexivity | exact unreachable_rejects
    | discriminate].
Defined.

Lemma non_object_body_raises_witness :
  let res := run Sdk.sdk (handle Sample.format QueueSong
                                 (Sample.body (PList [PStr "abc123"])))
                 Sample.logged_in in
  outcome res = inr AttributeError /\
  calls res
  = [(get_cached_token, fst (Sdk.sdk Sample.logged_in get_cached_token))].
Proof.
  apply (non_object_body_raises Sdk.sdk Sample.format
           (Sample.body (PList [PStr "abc123"])) Sample.logged_in
           (PList [PStr "abc123"]));
    [reflexivity | reflexivity | reflexivity | right; right; reflexivity].
Defined.

(** ** Edge cases of the search projection *)

(** X10: a search result without [tracks], or whose [tracks] has no
    [items], or whose [items] is empty, is answered with the empty array
    and status 200, not with an error. *)
Theorem search_without_items_is_empty (rkv : list (string * pyval)) :
  assoc "tracks" rkv = None \/
  (exists tkv, assoc "tracks" rkv = Some (PDict tkv) /\
               (assoc "items" tkv = None \/
                assoc "items" tkv = Some (PList []))) ->
  simplify_results (PDict rkv) = Ret (Json (PList []) 200).
Proof.
  unfold simplify_results. cbn [py_get bind].
  intros [Ht | (tkv & Ht & [Hi | Hi])]; rewrite Ht; cbn [py_get bind];
    try rewrite Hi; reflexivity.
Qed.

Lemma track_info_not_object (t : pyval) :
  is_dict t = false -> track_info t = Raise AttributeError.
Proof. destruct t; intros H; try discriminate H; reflexivity. Qed.

(** X11: the projection has no guard for a track item that is not an
    object (a [null] among the items, say): with well-shaped items before
    it, the whole search fails with [AttributeError], and no partial
    array is returned. *)
Theorem search_item_not_object_raises
  (rkv tkv : list (string * pyval)) (before after : list pyval) (bad : pyval) :
  assoc "tracks" rkv = Some (PDict tkv) ->
  assoc "items" tkv = Some (PList (before ++ bad :: after)) ->
  forallb track_ok before = true ->
  is_dict bad = false ->
  simplify_results (PDict rkv) = Raise AttributeError.
Proof.
  intros Ht Hi Hok Hbad.
  unfold simplify_results. cbn [py_get bind]. rewrite Ht.
  cbn [py_get bind]. rewrite Hi. cbn [py_iter bind].
  assert (Hm : mapM track_info (before ++ bad :: after) = Raise AttributeError).
  { clear Hi. induction before as [| t rest IH]; simpl.
    - rewrite (track_info_not_object bad Hbad). reflexivity.
    - simpl in Hok. apply andb_true_iff in Hok as [Ht' Hrest].
      rewrite (track_info_ok t Ht'), (IH Hrest). reflexivity. }
  rewrite Hm. reflexivity.
Qed.

Lemma artist_projection_is_dict (arts : list pyval) :
  forallb is_dict arts = true ->
  forallb is_dict (map artist_projection arts) = true.
Proof.
  induction arts as [| a rest IH]; simpl; intros H; [reflexivity |].
  apply andb_true_iff in H as [Ha Hrest].
  destruct a; try discriminate Ha. simpl. exact (IH Hrest).
Qed.

Lemma artist_projection_idempotent (arts : list pyval) :
  forallb is_dict arts = true ->
  map artist_projection (map artist_projection arts)
  = map artist_projection arts.
Proof.
  induction arts as [| a rest IH]; simpl; intros H; [reflexivity |].
  apply andb_true_iff in H as [Ha Hrest].
  destruct a; try discriminate Ha. rewrite (IH Hrest). reflexivity.
Qed.

(** X12: the reduced shape is stable.  The object the projection builds
    for a well-shaped track item is itself a well-shaped track item, and
    projecting it again gives it back unchanged. *)
Theorem projection_is_idempotent (t : pyval) :
  track_ok t = true ->
  exists o,
    track_info t = Ret o /\ track_ok o = true /\ track_info o = Ret o.
Proof.
  intros Hok. exists (track_projection t).
  split; [exact (track_info_ok t Hok) |].
  destruct t; try discriminate Hok.
  simpl in Hok. apply andb_true_iff in Hok as [Ha _].
  assert (Harts : forallb is_dict (artists_of kv) = true).
  { unfold artists_of.
    destruct (assoc "artists" kv) as [[ | | | | arts | ] |];
      try discriminate Ha; try reflexivity. exact Ha. }
  assert (Hok' : track_ok (track_projection (PDict kv)) = true).
  { simpl. rewrite (artist_projection_is_dict _ Harts). reflexivity. }
  split; [exact Hok' |].
  rewrite (track_info_ok _ Hok').
  clear Hok' Ha.
  unfold track_projection, dict_get, artists_of, album_of in *. cbn.
  rewrite (artist_projection_idempotent _ Harts). reflexivity.
Qed.

Lemma search_without_items_is_empty_witness :
  simplify_results (PDict [("tracks", PDict [("total", PInt 0)])])
  = Ret (Json (PList []) 200).
Proof.
  apply (search_without_items_is_empty [("tracks", PDict [("total", PInt 0)])]).
  right. exists [("total", PInt 0)]. split; [reflexivity | left; reflexivity].
Defined.

Lemma search_item_not_object_raises_witness :
  simplify_results
    (PDict [("tracks", PDict [("items", PList [Sample.a_track; PNone; PDict []])])])
  = Raise AttributeError.
Proof.
  apply (search_item_not_object_raises
           [("tracks", PDict [("items", PList [Sample.a_track; PNone; PDict []])])]
           [("items", PList [Sample.a_track; PNone; PDict []])]
           [Sample.a_track] [PDict []] PNone);
    reflexivity.
Defined.

Lemma projection_is_idempotent_witness :
  exists o,
    track_info Sample.a_track = Ret o /\ track_ok o = true /\
    track_info o = Ret o.
Proof.
  apply (projection_is_idempotent Sample.a_track). reflexivity.
Defined.

(** X13: the defaults of the projection apply to missing keys only.  A
    track item whose [artists] is present but [null] fails with
    [TypeError]; one whose [artists] is well-shaped and whose [album] is
    present but not an object ([null], say) fails with [AttributeError]. *)
Theorem present_null_field_raises (kv : list (string * pyval)) :
  (assoc "artists" kv = Some PNone ->
   track_info (PDict kv) = Raise TypeError) /\
  (forall v,
      forallb is_dict (artists_of kv) = true ->
      (assoc "artists" kv = None \/
       exists arts, assoc "artists" kv = Some (PList arts)) ->
      assoc "album" kv = Some v ->
      is_dict v = false ->
      track_info (PDict kv) = Raise AttributeError).
Proof.
  split.
  - intros Ha. unfold track_info. cbn [py_get bind]. rewrite Ha. reflexivity.
  - intros v Harts Ha Halb Hv.
    unfold track_info, album_get. cbn [py_get bind].
    unfold artists_of in Harts.
    destruct Ha as [Ha | [arts Ha]]; rewrite Ha in *; cbn [py_iter bind];
      try rewrite (mapM_artist_info arts Harts);
      cbn [mapM bind]; rewrite Halb;
      destruct v; try discriminate Hv; reflexivity.
Qed.

Lemma present_null_field_raises_witness :
  track_info (PDict [("id", PStr "abc123"); ("artists", PNone)])
  = Raise TypeError /\
  track_info (PDict [("id", PStr "abc123"); ("album", PNone)])
  = Raise AttributeError.
Proof.
  split.
  - apply (proj1 (present_null_field_raises
                    [("id", PStr "abc123"); ("artists", PNone)])).
    reflexivity.
  - apply (proj2 (present_null_field_raises
                    [("id", PStr "abc123"); ("album", PNone)]) PNone);
      [reflexivity | left; reflexivity | reflexivity | reflexivity].
Defined.

Lemma guarded_routes_answer_400_witness :
  outcome (run Sdk.sdk
               (handle Sample.format PlaySong
                       (Sample.body (PDict [("track_id", PStr "abc123")])))
               Sample.logged_in_rejecting)
  = inl (Json (PDict [("error",
                       PStr "http status: 403, code: -1 - Forbidden")]) 400).
Proof.
  apply (guarded_routes_answer_400 Sdk.sdk Sample.format
           "http status: 403, code: -1 - Forbidden"
           Sample.logged_in_rejecting sample_rejecting PlaySong
           (Sample.body (PDict [("track_id", PStr "abc123")])));
    reflexivity.
Defined.

Section CallbackEscapes.

Context {W : Type}.
Variable sdk : W -> call -> answer * W.

(** X15: [callback] has no [except] clause.  When the exchange of a
    non-empty [code] raises, the exception leaves the view function after
    that one call; no 400 response is built. *)
Theorem exchange_exception_escapes
  (req : request) (w : W) (code : string) (e : exn) :
  truthy (args_get req "error") = false ->
  assoc "code" (args req) = Some code ->
  code <> "" ->
  fst (sdk w (get_access_token (PStr code))) = Raises e ->
  let res := run sdk (callback req) w in
  outcome res = inr e /\
  calls res = [(get_access_token (PStr code), Raises e)].
Proof.
  intros Herr Hcode Hne He res. subst res.
  assert (Hc : args_get req "code" = PStr code)
    by (unfold args_get; rewrite Hcode; reflexivity).
  unfold callback. rewrite Herr, Hc, (truthy_PStr code Hne).
  cbn [bind invoke run].
  destruct (sdk w (get_access_token (PStr code))) as [a w1].
  simpl in He. subst a. split; reflexivity.
Qed.

End CallbackEscapes.

Lemma exchange_exception_escapes_witness :
  let res := run Faulty.offline (callback (Sample.query "code" "abc")) tt in
  outcome res = inr (OtherError "ConnectionError") /\
  calls res
  = [(get_access_token (PStr "abc"), Raises (OtherError "ConnectionError"))].
Proof.
  apply (exchange_exception_escapes Faulty.offline
           (Sample.query "code" "abc") tt "abc" (OtherError "ConnectionError"));
    [reflexivity | reflexivity | discriminate | reflexivity].
Defined.

(** ** Expired sessions and replayed codes *)

Section Lookup.

Context {W : Type}.
Variable sdk : W -> call -> answer * W.
Variable format_value : pyval -> string.


End Lookup.



Section Replay.

Context {W : Type}.
Variable sdk : W -> call -> answer * W.


End Replay.


